(** * refresh_abi_map: selector table printed from contract interface files

    A shallow embedding of [scripts/refresh_abi_map.py].  The script scans
    the JSON files of the working directory, and for every entry of kind
    "function" found under "abi" prints one line pairing the 4-byte selector
    with a readable signature.

    The file is organised as follows.
    - [Keccak]: the hash primitive behind the selector (external to the
      script, modelled).
    - The values [json.load] produces and the Python operations the script
      applies to them, with the exceptions they raise.
    - [EthUtils]: the selector routine the script imports (modelled).
    - The script itself, parametric in the imported routine and in Python's
      rendering of values that are not strings.
    - The properties. *)

From Stdlib Require Import NArith ZArith List Bool Lia.
From Stdlib.Strings Require Import String Ascii Byte.
From Stdlib Require Import DecimalString.
Import ListNotations.
Open Scope string_scope.
Open Scope list_scope.

(** ** Keccak-256 *)

Module Keccak.

(** Modelled from the spec: the hash primitive is not part of the script, it
    comes with the imported package [eth_utils].  The spec asks for a
    deterministic cryptographic hash of the signature text; the one used for
    selectors is Keccak-256 (rate 136 bytes, original [0x01 .. 0x80]
    padding, 24 rounds on 25 lanes of 64 bits).  Lanes are [N] with the
    wrap-around at 64 bits written out. *)

Definition mask64 : N := 0xFFFFFFFFFFFFFFFF%N.

Definition rotl64 (x n : N) : N :=
  N.lor (N.land (N.shiftl x n) mask64) (N.shiftr x (64 - n)).

Definition not64 (x : N) : N := N.lxor x mask64.

(** Lane [(x, y)] of the state sits at index [x + 5 * y]. *)
Definition lane (st : list N) (x y : nat) : N :=
  nth ((x mod 5) + 5 * (y mod 5)) st 0%N.

Definition coords : list (nat * nat) :=
  flat_map (fun y => map (fun x => (x, y)) (seq 0 5)) (seq 0 5).

Definition rotation_offsets : list N :=
  [ 0;  1; 62; 28; 27;
   36; 44;  6; 55; 20;
    3; 10; 43; 25; 39;
   41; 45; 15; 21;  8;
   18;  2; 61; 56; 14]%N.

Definition rotation_offset (x y : nat) : N :=
  nth ((x mod 5) + 5 * (y mod 5)) rotation_offsets 0%N.

Definition round_constants : list N :=
  [0x0000000000000001; 0x0000000000008082; 0x800000000000808A;
   0x8000000080008000; 0x000000000000808B; 0x0000000080000001;
   0x8000000080008081; 0x8000000000008009; 0x000000000000008A;
   0x0000000000000088; 0x0000000080008009; 0x000000008000000A;
   0x000000008000808B; 0x800000000000008B; 0x8000000000008089;
   0x8000000000008003; 0x8000000000008002; 0x8000000000000080;
   0x000000000000800A; 0x800000008000000A; 0x8000000080008081;
   0x8000000000008080; 0x0000000080000001; 0x8000000080008008]%N.

Definition column_parity (st : list N) (x : nat) : N :=
  fold_left N.lxor (map (lane st x) (seq 0 5)) 0%N.

Definition theta (st : list N) : list N :=
  let d x := N.lxor (column_parity st (x + 4))
                    (rotl64 (column_parity st (x + 1)) 1) in
  map (fun '(x, y) => N.lxor (lane st x y) (d x)) coords.

(** [B[y, 2x + 3y] = rot (A[x, y], r[x, y])], read from the side of [B]:
    the lane that lands on [(x, y)] comes from [(x + 3y, x)]. *)
Definition rho_pi (st : list N) : list N :=
  map (fun '(x, y) =>
         rotl64 (lane st (x + 3 * y) x) (rotation_offset (x + 3 * y) x))
      coords.

Definition chi (st : list N) : list N :=
  map (fun '(x, y) =>
         N.lxor (lane st x y)
                (N.land (not64 (lane st (x + 1) y)) (lane st (x + 2) y)))
      coords.

Definition iota (rc : N) (st : list N) : list N :=
  match st with
  | [] => []
  | a :: rest => N.lxor a rc :: rest
  end.

Definition round (st : list N) (rc : N) : list N :=
  iota rc (chi (rho_pi (theta st))).

Definition keccak_f (st : list N) : list N :=
  fold_left round round_constants st.

Definition rate : nat := 136.

Definition pad (msg : list N) : list N :=
  let q := rate - (List.length msg mod rate) in
  match q with
  | 1 => msg ++ [0x81%N]
  | _ => msg ++ [0x01%N] ++ repeat 0%N (q - 2) ++ [0x80%N]
  end.

(** Eight bytes, least significant first, make a lane. *)
Definition lane_of_bytes (bs : list N) : N :=
  fold_right (fun b acc => (b + 256 * acc)%N) 0%N bs.

Definition bytes_of_lane (w : N) : list N :=
  map (fun i => N.land (N.shiftr w (8 * N.of_nat i)) 0xFF%N) (seq 0 8).

Definition xor_block (st block : list N) : list N :=
  map (fun i =>
         let w := if Nat.ltb i (rate / 8)
                  then lane_of_bytes (firstn 8 (skipn (8 * i) block))
                  else 0%N in
         N.lxor (nth i st 0%N) w)
      (seq 0 25).

Fixpoint absorb (fuel : nat) (st data : list N) : list N :=
  match fuel, data with
  | S fuel', _ :: _ =>
      absorb fuel' (keccak_f (xor_block st (firstn rate data)))
             (skipn rate data)
  | _, _ => st
  end.

Definition squeeze (st : list N) : list N :=
  bytes_of_lane (nth 0 st 0%N) ++ bytes_of_lane (nth 1 st 0%N) ++
  bytes_of_lane (nth 2 st 0%N) ++ bytes_of_lane (nth 3 st 0%N).

Definition byte_of_N (n : N) : byte :=
  match Byte.of_N n with
  | Some b => b
  | None => x00
  end.

(** Modelled from the spec: the digest of a byte string, 32 bytes. *)
Definition keccak256 (msg : list byte) : list byte :=
  let data := pad (map Byte.to_N msg) in
  map byte_of_N (squeeze (absorb (List.length data) (repeat 0%N 25) data)).

End Keccak.

Arguments Keccak.keccak256 : simpl never.

(** ** Bytes rendered as hex: Python's [bytes.hex()] *)

Definition hex_digit (n : N) : ascii :=
  nth (N.to_nat n)
      (list_ascii_of_string "0123456789abcdef") "0"%char.

Definition hex_of_byte (b : byte) : string :=
  let n := Byte.to_N b in
  String (hex_digit (n / 16)) (String (hex_digit (n mod 16)) EmptyString).

Fixpoint hex (bs : list byte) : string :=
  match bs with
  | [] => EmptyString
  | b :: rest => (hex_of_byte b ++ hex rest)%string
  end.


(** ** Values read by [json.load], and Python's exceptions *)

(** A parsed document.  Objects keep their members in document order;
    numbers are either Python ints or floats (kept as the 64 bits of the
    double: the script never computes with one). *)
#[local] Set Warnings "-register-all".

Inductive json : Type :=
| JNull
| JBool (b : bool)
| JInt (z : Z)
| JFloat (bits : Z)
| JStr (s : string)
| JArr (items : list json)
| JObj (members : list (string * json)).

Inductive exn : Type :=
| KeyError (key : string)
| TypeError
| AttributeError
| ValueError
| OSError
| JSONDecodeError.

Inductive result (A : Type) : Type :=
| Ok (a : A)
| Raise (e : exn).

Arguments Ok {A} a.
Arguments Raise {A} e.

Definition bind_result {A B} (r : result A) (k : A -> result B) : result B :=
  match r with
  | Ok a => k a
  | Raise e => Raise e
  end.

Declare Scope result_scope.
Delimit Scope result_scope with result.
Notation "x <- c ;; k" := (bind_result c (fun x => k))
  (at level 61, c at next level, right associativity) : result_scope.

Fixpoint map_result {A B} (f : A -> result B) (l : list A) : result (list B) :=
  match l with
  | [] => Ok []
  | a :: rest =>
      (b <- f a ;; bs <- map_result f rest ;; Ok (b :: bs))%result
  end.

(** ** The Python operations the script applies *)

(** [json.load] keeps the last value of a repeated member name. *)
Definition dict_lookup (key : string) (members : list (string * json))
  : option json :=
  fold_left (fun found '(k, v) => if String.eqb k key then Some v else found)
            members None.

(** Keys in the order of their first occurrence. *)
Fixpoint dict_keys (members : list (string * json)) : list string :=
  match members with
  | [] => []
  | (k, _) :: rest =>
      k :: filter (fun k' => negb (String.eqb k' k)) (dict_keys rest)
  end.

(** [v[key]] with a string key: only a dict accepts it. *)
Definition subscript (v : json) (key : string) : result json :=
  match v with
  | JObj members =>
      match dict_lookup key members with
      | Some x => Ok x
      | None => Raise (KeyError key)
      end
  | _ => Raise TypeError
  end.

(** [v.get(key, default)]. *)
Definition dict_get (v : json) (key : string) (default : json) : result json :=
  match v with
  | JObj members =>
      match dict_lookup key members with
      | Some x => Ok x
      | None => Ok default
      end
  | _ => Raise AttributeError
  end.

(** What a [for] loop or a comprehension walks over: the items of a list,
    the keys of a dict, the characters of a string (one per byte here, which
    is one per character on ASCII text; each is a string in any case).
    Nothing else is iterable. *)
Definition iterate (v : json) : result (list json) :=
  match v with
  | JArr items => Ok items
  | JObj members => Ok (map JStr (dict_keys members))
  | JStr s =>
      Ok (map (fun c => JStr (String c EmptyString)) (list_ascii_of_string s))
  | _ => Raise TypeError
  end.

(** [v != s] for a string [s]: a value that is not a string differs. *)
Definition ne_str (v : json) (s : string) : bool :=
  match v with
  | JStr t => negb (String.eqb t s)
  | _ => true
  end.

Definition as_str (v : json) : result string :=
  match v with
  | JStr s => Ok s
  | _ => Raise TypeError
  end.

(** [sep.join(items)]: every item has to be a string. *)
Definition str_join (sep : string) (items : list json) : result string :=
  (strs <- map_result as_str items ;; Ok (String.concat sep strs))%result.

(** A value interpolated in a format string: a string goes in as it is, any
    other value through [str()], which is left to a parameter. *)
Definition format_value (py_str : json -> string) (v : json) : string :=
  match v with
  | JStr s => s
  | _ => py_str v
  end.

Definition dquote : string := String "034"%char EmptyString.

(** ** The script's effects: lines printed so far, and how the step ended *)

Definition io (A : Type) : Type := (list string * result A)%type.

Definition ret {A} (a : A) : io A := ([], Ok a).

Definition lift {A} (r : result A) : io A := ([], r).

Definition print (line : string) : io unit := ([line], Ok tt).

Definition bind_io {A B} (c : io A) (k : A -> io B) : io B :=
  match c with
  | (out, Ok a) => let (out', r) := k a in (out ++ out', r)
  | (out, Raise e) => (out, Raise e)
  end.

Declare Scope io_scope.
Delimit Scope io_scope with io.
Notation "x <- c ;; k" := (bind_io c (fun x => k))
  (at level 61, c at next level, right associativity) : io_scope.
Notation "c ;; k" := (bind_io c (fun _ => k))
  (at level 61, right associativity) : io_scope.

Definition stdout {A} (c : io A) : list string := fst c.
Definition outcome {A} (c : io A) : result A := snd c.

Definition raises {A} (c : io A) : Prop := exists e, outcome c = Raise e.

(** A [for] loop whose body may raise: the first exception ends it. *)
Fixpoint for_each {A} (body : A -> io unit) (l : list A) : io unit :=
  match l with
  | [] => ret tt
  | a :: rest => (body a ;; for_each body rest)%io
  end.

(** ** The imported selector routine *)

Module EthUtils.

(** Modelled from the spec: [function_abi_to_4byte_selector] belongs to the
    package [eth_utils], which is not part of the sources.  The spec
    describes it as a hash of the canonical signature text of the entry,
    [name(type1,type2)], cut to its first 4 bytes. *)

(** Modelled from the spec: the canonical signature text of an entry, its
    name followed by its parameter types between parentheses, joined by
    commas without spaces. *)
Definition abi_to_signature (py_str : json -> string) (abi : json)
  : result string :=
  (name <- subscript abi "name" ;;
   inputs <- dict_get abi "inputs" (JArr []) ;;
   input_list <- iterate inputs ;;
   types <- map_result (fun input => subscript input "type") input_list ;;
   args <- str_join "," types ;;
   Ok (format_value py_str name ++ "(" ++ args ++ ")")%string)%result.

(** Modelled from the spec: the first 4 bytes of the hash of the text. *)
Definition function_signature_to_4byte_selector (signature : string)
  : list byte :=
  firstn 4 (Keccak.keccak256 (list_byte_of_string signature)).

(** Modelled from the spec: the selector of an entry is the selector of its
    canonical signature text. *)
Definition function_abi_to_4byte_selector (py_str : json -> string)
  (abi : json) : result (list byte) :=
  (signature <- abi_to_signature py_str abi ;;
   Ok (function_signature_to_4byte_selector signature))%result.

End EthUtils.

Arguments EthUtils.function_signature_to_4byte_selector : simpl never.

(** ** The script *)

(** What [glob.glob] found: for each path, what [open] and [json.load] make
    of it. *)
Inductive file : Type :=
| Unreadable
| Malformed
| Document (json_data : json).

Definition json_load (f : file) : result json :=
  match f with
  | Unreadable => Raise OSError
  | Malformed => Raise JSONDecodeError
  | Document json_data => Ok json_data
  end.

(** The line the script prints for a selector (already in hex), a name and
    an argument string. *)
Definition output_line (function_signature function_name arg_string : string)
  : string :=
  ("[" ++ dquote ++ "0x" ++ function_signature ++ dquote ++ ", " ++
   dquote ++ function_name ++ "(" ++ arg_string ++ ")" ++ dquote ++ "],")%string.

Section Script.

(** [str()] on values that are not strings, and the imported routine. *)
Variable py_str : json -> string.
Variable function_abi_to_4byte_selector : json -> result (list byte).

(** Lines 10 to 21: the body of the loop over ["abi"]. *)
Definition abi_loop_body (function_abi : json) : io unit :=
  (kind <- lift (subscript function_abi "type") ;;
   if ne_str kind "function" then ret tt
   else
     function_name <- lift (subscript function_abi "name") ;;
     selector <- lift (function_abi_to_4byte_selector function_abi) ;;
     let function_signature := hex selector in
     inputs <- lift (dict_get function_abi "inputs" (JArr [])) ;;
     input_list <- lift (iterate inputs) ;;
     arg_types <- lift (map_result (fun input_data => subscript input_data "type")
                                   input_list) ;;
     arg_string <- lift (str_join ", " arg_types) ;;
     print (output_line function_signature
                        (format_value py_str function_name) arg_string))%io.

(** Lines 6 to 9: the body of the loop over the files. *)
Definition file_loop_body (f : file) : io unit :=
  (json_data <- lift (json_load f) ;;
   abi <- lift (subscript json_data "abi") ;;
   entries <- lift (iterate abi) ;;
   for_each abi_loop_body entries)%io.

Definition main (files : list file) : io unit :=
  for_each file_loop_body files.

End Script.

(** ** Sample documents *)

(** [str()] on the atoms, for the sample runs: [None], [True], [False], an
    int in decimal.  The rendering of floats and containers is not written
    out; every theorem takes the rendering as a parameter, and no sample
    formats such a value. *)
Definition str_atoms (v : json) : string :=
  match v with
  | JNull => "None"
  | JBool true => "True"
  | JBool false => "False"
  | JInt z => NilZero.string_of_int (Z.to_int z)
  | JStr s => s
  | _ => EmptyString
  end.

Definition parameter (name type : string) : json :=
  JObj [("name", JStr name); ("type", JStr type)].

Definition transfer_abi : json :=
  JObj [("type", JStr "function"); ("name", JStr "transfer");
        ("inputs", JArr [parameter "to" "address";
                         parameter "amount" "uint256"]);
        ("outputs", JArr [parameter "success" "bool"])].

Definition total_supply_abi : json :=
  JObj [("type", JStr "function"); ("name", JStr "totalSupply");
        ("inputs", JArr [])].

Definition decimals_abi : json :=
  JObj [("type", JStr "function"); ("name", JStr "decimals")].

Definition transfer_event_abi : json :=
  JObj [("type", JStr "event"); ("name", JStr "Transfer");
        ("inputs", JArr [parameter "from" "address"])].

Definition constructor_abi : json :=
  JObj [("type", JStr "constructor")].

Definition token_document : json :=
  JObj [("contractName", JStr "Token");
        ("abi", JArr [constructor_abi; transfer_abi; transfer_event_abi;
                      total_supply_abi; decimals_abi])].

Definition transfer_document : json :=
  JObj [("abi", JArr [transfer_abi])].

(** The script with the modelled selector routine. *)
Definition script (files : list file) : io unit :=
  main str_atoms (EthUtils.function_abi_to_4byte_selector str_atoms) files.


Definition transfer_abi_other_names : json :=
  JObj [("name", JStr "transfer"); ("stateMutability", JStr "nonpayable");
        ("inputs", JArr [parameter "recipient" "address";
                         parameter "value" "uint256"]);
        ("type", JStr "function")].

Definition nameless_function_abi : json :=
  JObj [("type", JStr "function"); ("inputs", JArr [])].

Definition broken_document : json :=
  JObj [("abi", JArr [transfer_abi; nameless_function_abi;
                      total_supply_abi])].

(** [needle in hay]. *)
Fixpoint contains (needle hay : string) : bool :=
  String.prefix needle hay ||
  match hay with
  | EmptyString => false
  | String _ rest => contains needle rest
  end.

(** ** What the spec says a run prints *)

Definition is_lower_hex (c : ascii) : bool :=
  existsb (Ascii.eqb c) (list_ascii_of_string "0123456789abcdef").

(** An 8-hex-digit selector. *)
Definition selector_text (h : string) : Prop :=
  String.length h = 8 /\
  Forall (fun c => is_lower_hex c = true) (list_ascii_of_string h).

(** A line of the printed table. *)
Definition table_line (line : string) : Prop :=
  exists h name args, line = output_line h name args /\ selector_text h.

(** The declared types of a parameter sequence. *)
Definition parameter_types (input_list : list json) (types : list string)
  : Prop :=
  Forall2 (fun input type => subscript input "type" = Ok (JStr type))
          input_list types.

(** The lines an entry stands for: none unless its kind is "function", and
    then the one line made of its selector, its name and its parameter types
    joined by comma-space. *)
Inductive entry_prints (py_str : json -> string)
  (selector_of : json -> result (list byte)) : json -> list string -> Prop :=
| other_kind_prints_nothing function_abi kind :
    subscript function_abi "type" = Ok kind ->
    kind <> JStr "function" ->
    entry_prints py_str selector_of function_abi []
| function_prints_one_line function_abi name selector inputs input_list types :
    subscript function_abi "type" = Ok (JStr "function") ->
    subscript function_abi "name" = Ok name ->
    selector_of function_abi = Ok selector ->
    List.length selector = 4 ->
    dict_get function_abi "inputs" (JArr []) = Ok inputs ->
    iterate inputs = Ok input_list ->
    parameter_types input_list types ->
    entry_prints py_str selector_of function_abi
      [output_line (hex selector) (format_value py_str name)
                   (String.concat ", " types)].

Inductive file_prints (py_str : json -> string)
  (selector_of : json -> result (list byte)) : file -> list string -> Prop :=
| document_prints json_data abi entries outs :
    subscript json_data "abi" = Ok abi ->
    iterate abi = Ok entries ->
    Forall2 (entry_prints py_str selector_of) entries outs ->
    file_prints py_str selector_of (Document json_data) (List.concat outs).

(** The three ways the spec names for a run to fail: a file that cannot be
    read or parsed, a document from which "abi" cannot be read, an entry
    that lacks a required field.  An entry lacks a required field when it
    has no kind, or is a function without a name, or is a function one of
    whose parameters has no type. *)
Inductive entry_lacks_field : json -> Prop :=
| lacks_kind members :
    dict_lookup "type" members = None ->
    entry_lacks_field (JObj members)
| lacks_name members :
    dict_lookup "type" members = Some (JStr "function") ->
    dict_lookup "name" members = None ->
    entry_lacks_field (JObj members)
| lacks_parameter_type members inputs input_list fields :
    dict_lookup "type" members = Some (JStr "function") ->
    dict_lookup "inputs" members = Some inputs ->
    iterate inputs = Ok input_list ->
    In (JObj fields) input_list ->
    dict_lookup "type" fields = None ->
    entry_lacks_field (JObj members).

Inductive file_fatal : file -> Prop :=
| not_readable : file_fatal Unreadable
| not_parseable : file_fatal Malformed
| abi_absent json_data e :
    subscript json_data "abi" = Raise e ->
    file_fatal (Document json_data)
| entry_incomplete json_data abi entries function_abi :
    subscript json_data "abi" = Ok abi ->
    iterate abi = Ok entries ->
    In function_abi entries ->
    entry_lacks_field function_abi ->
    file_fatal (Document json_data).

(** ** Vocabulary for the behaviour of the loops *)

(** Line 10, as a test: the loop body goes past the guard. *)
Definition is_function_entry (function_abi : json) : bool :=
  match subscript function_abi "type" with
  | Ok kind => negb (ne_str kind "function")
  | Raise _ => false
  end.

(** Lines 15 and 16: the values under "type" of the entry's parameters. *)
Definition read_parameter_types (function_abi : json) : result (list json) :=
  (inputs <- dict_get function_abi "inputs" (JArr []) ;;
   input_list <- iterate inputs ;;
   map_result (fun input_data => subscript input_data "type") input_list)%result.

(** A line as [print] builds it, whatever bytes the selector routine gave. *)
Definition printed_line (line : string) : Prop :=
  exists selector name args, line = output_line (hex selector) name args.

(** A value a loop walks over without a single iteration. *)
Definition empty_iterable (v : json) : bool :=
  match v with
  | JArr [] => true
  | JObj [] => true
  | JStr EmptyString => true
  | _ => false
  end.

Definition is_object (v : json) : bool :=
  match v with
  | JObj _ => true
  | _ => false
  end.

Definition is_list (v : json) : bool :=
  match v with
  | JArr _ => true
  | _ => false
  end.

Definition is_str (v : json) : bool :=
  match v with
  | JStr _ => true
  | _ => false
  end.

(** An entry of a run: an item of the "abi" of one of its documents. *)
Definition entry_of (files : list file) (function_abi : json) : Prop :=
  exists json_data abi entries,
    In (Document json_data) files /\
    subscript json_data "abi" = Ok abi /\
    iterate abi = Ok entries /\
    In function_abi entries.

Definition pause_null_inputs_abi : json :=
  JObj [("type", JStr "function"); ("name", JStr "pause");
        ("inputs", JNull)].

Definition mint_numeric_type_abi : json :=
  JObj [("type", JStr "function"); ("name", JStr "mint");
        ("inputs", JArr [parameter "to" "address";
                         JObj [("name", JStr "amount");
                               ("type", JInt 256)]])].

Definition other_document : json :=
  JObj [("abi", JArr [decimals_abi; transfer_abi_other_names])].

(** An entry, an object, that lacks a key the loop body subscripts:
    "type" at line 10, and for a function "name" at line 12. *)
Inductive missing_key : json -> string -> Prop :=
| missing_type members :
    dict_lookup "type" members = None ->
    missing_key (JObj members) "type"
| missing_name members :
    dict_lookup "type" members = Some (JStr "function") ->
    dict_lookup "name" members = None ->
    missing_key (JObj members) "name".

(** Reading hex text back, two digits a byte. *)
Fixpoint position (c : ascii) (l : list ascii) : nat :=
  match l with
  | [] => 0
  | d :: rest => if Ascii.eqb d c then 0 else S (position c rest)
  end.

Definition hex_value (c : ascii) : N :=
  N.of_nat (position c (list_ascii_of_string "0123456789abcdef")).

Definition byte_of_hex (hi lo : ascii) : byte :=
  Keccak.byte_of_N (16 * hex_value hi + hex_value lo).

Fixpoint unhex (s : string) : list byte :=
  match s with
  | String hi (String lo rest) => byte_of_hex hi lo :: unhex rest
  | _ => []
  end.

(** * Properties *)

(** ** Hex text *)

Lemma hex_of_byte_digits (b : byte) :
  Forall (fun c => is_lower_hex c = true)
         (list_ascii_of_string (hex_of_byte b)).
Proof.
  destruct b; vm_compute; repeat constructor.
Qed.

Lemma list_ascii_of_string_app (s t : string) :
  list_ascii_of_string (s ++ t)%string =
  list_ascii_of_string s ++ list_ascii_of_string t.
Proof.
  induction s as [|c s IH]; simpl; [reflexivity | now rewrite IH].
Qed.

Lemma hex_digits (bs : list byte) :
  Forall (fun c => is_lower_hex c = true) (list_ascii_of_string (hex bs)).
Proof.
  induction bs as [|b bs IH]; cbn [hex].
  - constructor.
  - rewrite list_ascii_of_string_app. apply Forall_app. split.
    + apply hex_of_byte_digits.
    + exact IH.
Qed.

Lemma hex_length (bs : list byte) :
  String.length (hex bs) = 2 * List.length bs.
Proof.
  induction bs as [|b bs IH]; [reflexivity|].
  cbn [hex hex_of_byte String.append String.length List.length].
  rewrite IH. lia.
Qed.

Lemma hex_selector_text (selector : list byte) :
  List.length selector = 4 -> selector_text (hex selector).
Proof.
  intros Hlen. split.
  - rewrite hex_length, Hlen. reflexivity.
  - apply hex_digits.
Qed.

(** ** Loops *)

Lemma bind_io_ret {A} (k : unit -> io A) : bind_io (ret tt) k = k tt.
Proof.
  unfold bind_io, ret. destruct (k tt). reflexivity.
Qed.

Lemma bind_io_lift_ok {A B} (a : A) (k : A -> io B) :
  bind_io (lift (Ok a)) k = k a.
Proof.
  unfold bind_io, lift. destruct (k a). reflexivity.
Qed.

Lemma bind_io_assoc {A B C} (c : io A) (k : A -> io B) (h : B -> io C) :
  bind_io (bind_io c k) h = bind_io c (fun a => bind_io (k a) h).
Proof.
  destruct c as [out [a|e]]; simpl; [|reflexivity].
  destruct (k a) as [out1 [b|e1]]; simpl; [|reflexivity].
  destruct (h b) as [out2 r]. now rewrite app_assoc.
Qed.

Lemma for_each_app {A} (body : A -> io unit) (l1 l2 : list A) :
  for_each body (l1 ++ l2) =
  bind_io (for_each body l1) (fun _ => for_each body l2).
Proof.
  induction l1 as [|a l1 IH]; cbn [app for_each].
  - now rewrite bind_io_ret.
  - now rewrite IH, bind_io_assoc.
Qed.

Lemma for_each_outputs {A} (body : A -> io unit) (l : list A)
  (outs : list (list string)) :
  Forall2 (fun a out => body a = (out, Ok tt)) l outs ->
  for_each body l = (List.concat outs, Ok tt).
Proof.
  induction 1 as [|a out l outs Ha _ IH]; simpl.
  - reflexivity.
  - now rewrite Ha, IH.
Qed.

(** Whatever follows a failing step is not run. *)
Lemma for_each_stops {A} (body : A -> io unit) (pre post : list A) (a : A) :
  raises (body a) ->
  for_each body (pre ++ a :: post) = for_each body (pre ++ [a]).
Proof.
  intros Ha. rewrite 2 for_each_app. f_equal. simpl.
  destruct Ha as [e He]. destruct (body a) as [out [u|e']]; simpl in *.
  - discriminate.
  - reflexivity.
Qed.

Lemma for_each_skip {A} (body : A -> io unit) (pre post : list A) (a : A) :
  body a = ([], Ok tt) ->
  for_each body (pre ++ a :: post) = for_each body (pre ++ post).
Proof.
  intros Ha. induction pre as [|b pre IH]; cbn [app for_each].
  - rewrite Ha. apply (bind_io_ret (fun _ => for_each body post)).
  - now rewrite IH.
Qed.

Lemma for_each_raises {A} (body : A -> io unit) (l : list A) (a : A) :
  In a l -> raises (body a) -> raises (for_each body l).
Proof.
  intros Hin Ha. induction l as [|b l IH]; [contradiction|].
  simpl. destruct (body b) as [out [u|e]] eqn:Hb.
  - destruct Hin as [->|Hin].
    + destruct Ha as [e He]. rewrite Hb in He. discriminate.
    + destruct (IH Hin) as [e He]. exists e.
      unfold bind_io. destruct (for_each body l) as [out' r]. exact He.
  - exists e. reflexivity.
Qed.

Lemma map_result_raises {A B} (f : A -> result B) (l : list A) (a : A) :
  In a l -> (exists e, f a = Raise e) -> exists e, map_result f l = Raise e.
Proof.
  intros Hin [e He]. induction l as [|b l IH]; [contradiction|].
  simpl. destruct (f b) as [y|e'] eqn:Hb; simpl.
  - destruct Hin as [->|Hin]; [congruence|].
    destruct (IH Hin) as [e1 ->]. now exists e1.
  - now exists e'.
Qed.

Lemma parameter_types_read (input_list : list json) (types : list string) :
  parameter_types input_list types ->
  map_result (fun input_data => subscript input_data "type") input_list =
  Ok (map JStr types).
Proof.
  induction 1 as [|input type input_list types Hi _ IH]; simpl.
  - reflexivity.
  - now rewrite Hi, IH.
Qed.

Lemma str_join_strs (sep : string) (types : list string) :
  str_join sep (map JStr types) = Ok (String.concat sep types).
Proof.
  unfold str_join.
  assert (H : map_result as_str (map JStr types) = Ok types).
  { induction types as [|t types IH]; simpl; [reflexivity | now rewrite IH]. }
  now rewrite H.
Qed.

Lemma ne_str_other (kind : json) :
  kind <> JStr "function" -> ne_str kind "function" = true.
Proof.
  intros Hk. destruct kind; try reflexivity. simpl.
  destruct (String.eqb_spec s "function") as [->|]; [congruence | reflexivity].
Qed.

Lemma subscript_get (v : json) (key : string) (x default : json) :
  subscript v key = Ok x -> dict_get v key default = Ok x.
Proof.
  destruct v; simpl; try discriminate.
  destruct (dict_lookup key members); [trivial | discriminate].
Qed.

Lemma subscript_lookup (members : list (string * json)) (key : string)
  (x : json) :
  dict_lookup key members = Some x -> subscript (JObj members) key = Ok x.
Proof.
  intros H. simpl. now rewrite H.
Qed.

Section ScriptFacts.

Variable py_str : json -> string.
Variable function_abi_to_4byte_selector : json -> result (list byte).

Local Abbreviation entry_body :=
  (abi_loop_body py_str function_abi_to_4byte_selector).
Local Abbreviation file_body :=
  (file_loop_body py_str function_abi_to_4byte_selector).
Local Abbreviation run := (main py_str function_abi_to_4byte_selector).
Local Abbreviation prints :=
  (entry_prints py_str function_abi_to_4byte_selector).
Local Abbreviation prints_file :=
  (file_prints py_str function_abi_to_4byte_selector).

Lemma abi_loop_body_other (function_abi kind : json) :
  subscript function_abi "type" = Ok kind ->
  kind <> JStr "function" ->
  entry_body function_abi = ([], Ok tt).
Proof.
  intros Hkind Hother. unfold abi_loop_body.
  rewrite Hkind. simpl. now rewrite (ne_str_other _ Hother).
Qed.

Lemma abi_loop_body_function (function_abi name inputs : json)
  (selector : list byte) (input_list : list json) (types : list string) :
  subscript function_abi "type" = Ok (JStr "function") ->
  subscript function_abi "name" = Ok name ->
  function_abi_to_4byte_selector function_abi = Ok selector ->
  dict_get function_abi "inputs" (JArr []) = Ok inputs ->
  iterate inputs = Ok input_list ->
  parameter_types input_list types ->
  entry_body function_abi =
  ([output_line (hex selector) (format_value py_str name)
                (String.concat ", " types)], Ok tt).
Proof.
  intros Hkind Hname Hsel Hget Hiter Htypes. unfold abi_loop_body.
  rewrite Hkind. simpl. rewrite Hname. simpl. rewrite Hsel. simpl.
  rewrite Hget. simpl. rewrite Hiter. simpl.
  rewrite (parameter_types_read _ _ Htypes). simpl.
  rewrite str_join_strs. reflexivity.
Qed.

Lemma entry_prints_run (function_abi : json) (out : list string) :
  prints function_abi out -> entry_body function_abi = (out, Ok tt).
Proof.
  intros [e kind Hkind Hother | e name sel inputs ins types Hk Hn Hs _ Hg Hi Ht].
  - eapply abi_loop_body_other; eassumption.
  - eapply abi_loop_body_function; eassumption.
Qed.

Lemma entry_prints_lines (function_abi : json) (out : list string) :
  prints function_abi out -> Forall table_line out.
Proof.
  intros [e kind _ _ | e name sel inputs ins types _ _ _ Hlen _ _ _].
  - constructor.
  - constructor; [|constructor].
    exists (hex sel), (format_value py_str name), (String.concat ", " types).
    split; [reflexivity | now apply hex_selector_text].
Qed.

Lemma file_prints_run (f : file) (out : list string) :
  prints_file f out -> file_body f = (out, Ok tt).
Proof.
  intros [json_data abi entries outs Habi Hiter Hentries].
  unfold file_loop_body. simpl. rewrite Habi, Hiter. simpl.
  rewrite (for_each_outputs _ entries outs).
  - reflexivity.
  - eapply Forall2_impl; [|exact Hentries]. apply entry_prints_run.
Qed.

Lemma file_prints_lines (f : file) (out : list string) :
  prints_file f out -> Forall table_line out.
Proof.
  intros [json_data abi entries outs _ _ Hentries].
  induction Hentries as [|e lines entries outs He _ IH]; simpl.
  - constructor.
  - apply Forall_app. split; [now apply entry_prints_lines with e | exact IH].
Qed.


(** C3. An entry whose kind is anything but "function" (an event, a
    constructor, a kind that is not even a string) prints no line, and the
    loop goes on. *)
Theorem other_kinds_print_nothing (function_abi kind : json) :
  subscript function_abi "type" = Ok kind ->
  kind <> JStr "function" ->
  abi_loop_body py_str function_abi_to_4byte_selector function_abi =
  ([], Ok tt).
Proof.
  apply abi_loop_body_other.
Qed.

(** C7. A function entry whose parameter sequence is empty prints the
    signature [name()], with nothing between the parentheses. *)
Theorem no_parameters_prints_empty_parentheses (function_abi : json)
  (name : string) (selector : list byte) :
  subscript function_abi "type" = Ok (JStr "function") ->
  subscript function_abi "name" = Ok (JStr name) ->
  subscript function_abi "inputs" = Ok (JArr []) ->
  function_abi_to_4byte_selector function_abi = Ok selector ->
  abi_loop_body py_str function_abi_to_4byte_selector function_abi =
  ([("[" ++ dquote ++ "0x" ++ hex selector ++ dquote ++ ", " ++
     dquote ++ name ++ "()" ++ dquote ++ "],")%string], Ok tt).
Proof.
  intros Hkind Hname Hinputs Hsel.
  rewrite (abi_loop_body_function function_abi (JStr name) (JArr [])
             selector [] []); try assumption.
  - reflexivity.
  - now apply subscript_get.
  - reflexivity.
  - constructor.
Qed.

(** C8. With no matching file the script prints nothing and ends without an
    error. *)
Theorem no_files_no_output :
  main py_str function_abi_to_4byte_selector [] = ([], Ok tt).
Proof.
  reflexivity.
Qed.

(** C9. A function entry without an "inputs" member is not an error: the
    script prints the line for [name()], the very line it prints for an
    entry with the same name and selector whose "inputs" is the empty
    sequence. *)
Theorem missing_inputs_is_empty_parameters (members : list (string * json))
  (name : json) (selector : list byte) :
  dict_lookup "type" members = Some (JStr "function") ->
  dict_lookup "name" members = Some name ->
  dict_lookup "inputs" members = None ->
  function_abi_to_4byte_selector (JObj members) = Ok selector ->
  abi_loop_body py_str function_abi_to_4byte_selector (JObj members) =
  ([("[" ++ dquote ++ "0x" ++ hex selector ++ dquote ++ ", " ++
     dquote ++ format_value py_str name ++ "()" ++ dquote ++ "],")%string],
   Ok tt) /\
  forall with_inputs : json,
    subscript with_inputs "type" = Ok (JStr "function") ->
    subscript with_inputs "name" = Ok name ->
    subscript with_inputs "inputs" = Ok (JArr []) ->
    function_abi_to_4byte_selector with_inputs = Ok selector ->
    abi_loop_body py_str function_abi_to_4byte_selector with_inputs =
    abi_loop_body py_str function_abi_to_4byte_selector (JObj members).
Proof.
  intros Hkind Hname Hinputs Hsel.
  assert (Hrun : entry_body (JObj members) =
                 ([output_line (hex selector) (format_value py_str name)
                               (String.concat ", " [])], Ok tt)).
  { apply abi_loop_body_function with (inputs := JArr []) (input_list := []);
      try assumption.
    - now apply subscript_lookup.
    - now apply subscript_lookup.
    - simpl. now rewrite Hinputs.
    - reflexivity.
    - constructor. }
  split.
  - rewrite Hrun. reflexivity.
  - intros with_inputs Hk Hn Hi Hs. rewrite Hrun.
    apply abi_loop_body_function with (inputs := JArr []) (input_list := []);
      try assumption.
    + now apply subscript_get.
    + reflexivity.
    + constructor.
Qed.

Lemma entry_lacks_field_raises (function_abi : json) :
  entry_lacks_field function_abi -> raises (entry_body function_abi).
Proof.
  intros [members Hkind | members Hkind Hname
         | members inputs input_list fields Hkind Hinputs Hiter Hin Hfield];
    unfold abi_loop_body, raises; simpl; rewrite Hkind; simpl.
  - eexists. reflexivity.
  - rewrite Hname. simpl. eexists. reflexivity.
  - destruct (dict_lookup "name" members) as [name|]; simpl.
    2: { eexists. reflexivity. }
    destruct (function_abi_to_4byte_selector (JObj members)) as [sel|e]; simpl.
    2: { eexists. reflexivity. }
    rewrite Hinputs. simpl. rewrite Hiter. simpl.
    destruct (map_result_raises
                (fun input_data => subscript input_data "type")
                input_list (JObj fields) Hin) as [e He].
    { simpl. rewrite Hfield. eexists. reflexivity. }
    rewrite He. simpl. eexists. reflexivity.
Qed.

Lemma file_fatal_raises (f : file) :
  file_fatal f -> raises (file_body f).
Proof.
  intros [ | | json_data x Habi | json_data abi entries e Habi Hiter Hin He];
    unfold file_loop_body; simpl.
  - eexists. reflexivity.
  - eexists. reflexivity.
  - rewrite Habi. eexists. reflexivity.
  - rewrite Habi. simpl. rewrite Hiter. simpl.
    destruct (for_each_raises entry_body entries e Hin
                (entry_lacks_field_raises e He)) as [x Hx].
    exists x. destruct (for_each entry_body entries). exact Hx.
Qed.

(** C4. A file that cannot be read or parsed, a document without "abi", or an entry
    that lacks a field the script reads ends the run with an exception: the
    run fails, the files that follow are never processed, and inside the
    document the entries after the incomplete one are never processed
    either.  What was printed before stays printed; nothing is recovered. *)
Theorem fatal_errors_end_the_run (f : file) (pre post : list file) :
  file_fatal f ->
  raises (main py_str function_abi_to_4byte_selector (pre ++ f :: post)) /\
  main py_str function_abi_to_4byte_selector (pre ++ f :: post) =
  main py_str function_abi_to_4byte_selector (pre ++ [f]) /\
  (forall json_data abi before function_abi after,
      f = Document json_data ->
      subscript json_data "abi" = Ok abi ->
      iterate abi = Ok (before ++ function_abi :: after) ->
      entry_lacks_field function_abi ->
      file_loop_body py_str function_abi_to_4byte_selector f =
      for_each (abi_loop_body py_str function_abi_to_4byte_selector)
               (before ++ [function_abi])).
Proof.
  intros Hf. pose proof (file_fatal_raises f Hf) as Hraises.
  split; [|split].
  - apply for_each_raises with f; [|exact Hraises].
    apply in_or_app. right. now left.
  - now apply for_each_stops.
  - intros json_data abi before e after -> Habi Hiter He.
    unfold file_loop_body. cbn [json_load].
    rewrite bind_io_lift_ok, Habi, bind_io_lift_ok, Hiter, bind_io_lift_ok.
    apply for_each_stops. now apply entry_lacks_field_raises.
Qed.

End ScriptFacts.

(** ** The modelled selector routine *)

Lemma keccak256_length (msg : list byte) :
  List.length (Keccak.keccak256 msg) = 32.
Proof.
  unfold Keccak.keccak256, Keccak.squeeze, Keccak.bytes_of_lane.
  rewrite length_map, !length_app, !length_map, !length_seq. reflexivity.
Qed.

Lemma selector_length (signature : string) :
  List.length (EthUtils.function_signature_to_4byte_selector signature) = 4.
Proof.
  unfold EthUtils.function_signature_to_4byte_selector.
  rewrite length_firstn, keccak256_length. reflexivity.
Qed.

Example keccak256_of_nothing :
  hex (Keccak.keccak256 []) =
  "c5d2460186f7233c927e7db2dcc703c0e500b653ca82273b7bfad8045d85a470".
Proof.
  vm_compute. reflexivity.
Qed.

Example selector_of_balanceOf :
  hex (EthUtils.function_signature_to_4byte_selector "balanceOf(address)") =
  "70a08231".
Proof.
  vm_compute. reflexivity.
Qed.

Lemma map_result_each {A B} (f : A -> result B) (l : list A) (ys : list B) :
  map_result f l = Ok ys -> Forall2 (fun a y => f a = Ok y) l ys.
Proof.
  revert ys. induction l as [|a l IH]; simpl; intros ys H.
  - injection H as <-. constructor.
  - destruct (f a) as [y|] eqn:Ha; [|discriminate]. simpl in H.
    destruct (map_result f l) as [ys'|]; [|discriminate].
    injection H as <-. constructor; [exact Ha | now apply IH].
Qed.

Lemma as_str_each (items : list json) (strs : list string) :
  map_result as_str items = Ok strs -> items = map JStr strs.
Proof.
  intros H. apply map_result_each in H.
  induction H as [|item str items strs Hitem _ IH]; [reflexivity|].
  destruct item; try discriminate. injection Hitem as ->.
  simpl. now rewrite IH.
Qed.

(** What [abi_to_signature] read when it returns. *)
Lemma abi_to_signature_parts (py_str : json -> string) (function_abi : json)
  (signature : string) :
  EthUtils.abi_to_signature py_str function_abi = Ok signature ->
  exists name inputs input_list types,
    subscript function_abi "name" = Ok name /\
    dict_get function_abi "inputs" (JArr []) = Ok inputs /\
    iterate inputs = Ok input_list /\
    parameter_types input_list types /\
    signature = (format_value py_str name ++ "(" ++
                 String.concat "," types ++ ")")%string.
Proof.
  unfold EthUtils.abi_to_signature, str_join. intros Hsig.
  destruct (subscript function_abi "name") as [name|] eqn:Hname;
    [|discriminate].
  destruct (dict_get function_abi "inputs" (JArr [])) as [inputs|] eqn:Hget;
    [|discriminate].
  cbn [bind_result] in Hsig.
  destruct (iterate inputs) as [input_list|] eqn:Hiter; [|discriminate].
  cbn [bind_result] in Hsig.
  destruct (map_result (fun input => subscript input "type") input_list)
    as [items|] eqn:Hitems; [|discriminate].
  cbn [bind_result] in Hsig.
  destruct (map_result as_str items) as [types|] eqn:Htypes; [|discriminate].
  cbn [bind_result] in Hsig. injection Hsig as <-.
  apply as_str_each in Htypes. subst items.
  exists name, inputs, input_list, types. repeat split; try assumption.
  unfold parameter_types.
  apply map_result_each in Hitems.
  clear -Hitems. remember (map JStr types) as items eqn:E.
  revert types E.
  induction Hitems as [|input item input_list items Hi _ IH];
    intros [|type types] E; try discriminate; constructor.
  - injection E as -> _. exact Hi.
  - injection E as _ E. now apply IH.
Qed.

(** With the modelled routine, an entry that has a signature is printed, and
    the selector on its line is the hash of that signature. *)
Lemma modelled_entry_line (py_str : json -> string) (function_abi : json)
  (signature : string) :
  subscript function_abi "type" = Ok (JStr "function") ->
  EthUtils.abi_to_signature py_str function_abi = Ok signature ->
  exists name args,
    abi_loop_body py_str (EthUtils.function_abi_to_4byte_selector py_str)
                  function_abi =
    ([output_line
        (hex (EthUtils.function_signature_to_4byte_selector signature))
        name args], Ok tt).
Proof.
  intros Hkind Hsig.
  destruct (abi_to_signature_parts _ _ _ Hsig)
    as (name & inputs & input_list & types & Hname & Hget & Hiter & Htypes & _).
  exists (format_value py_str name), (String.concat ", " types).
  apply abi_loop_body_function with (inputs := inputs)
                                    (input_list := input_list);
    try assumption.
  unfold EthUtils.function_abi_to_4byte_selector. now rewrite Hsig.
Qed.

Lemma selector_text_no_prefix (h : string) :
  selector_text h -> String.prefix "0x" h = false.
Proof.
  intros [Hlen Hdigits].
  destruct h as [|c1 [|c2 rest]]; try discriminate Hlen.
  simpl in Hdigits. inversion Hdigits as [|? ? _ Hrest]; subst.
  inversion Hrest as [|? ? Hc2 _]; subst.
  cbn [String.prefix]. destruct (ascii_dec "0" c1); [|reflexivity].
  destruct (ascii_dec "x" c2) as [<-|]; [|reflexivity].
  vm_compute in Hc2. discriminate.
Qed.

(** C10. An entry of another kind is decided by its kind alone: whatever
    else it holds or lacks (a name, inputs), whatever the selector routine
    would do with it, it raises nothing and prints nothing, and the run is
    the run without that entry. *)
Theorem other_kinds_read_only_the_kind
  (py_str py_str' : json -> string)
  (selector_of selector_of' : json -> result (list byte))
  (function_abi function_abi' kind : json) (pre post : list json) :
  subscript function_abi "type" = Ok kind ->
  subscript function_abi' "type" = Ok kind ->
  kind <> JStr "function" ->
  abi_loop_body py_str selector_of function_abi = ([], Ok tt) /\
  abi_loop_body py_str' selector_of' function_abi' =
  abi_loop_body py_str selector_of function_abi /\
  for_each (abi_loop_body py_str selector_of) (pre ++ function_abi :: post) =
  for_each (abi_loop_body py_str selector_of) (pre ++ post).
Proof.
  intros Hkind Hkind' Hother.
  pose proof (abi_loop_body_other py_str selector_of _ _ Hkind Hother) as Hrun.
  split; [exact Hrun | split].
  - rewrite Hrun. eapply abi_loop_body_other; eassumption.
  - now apply for_each_skip.
Qed.

(** C2, as the script has it.  For a document whose "abi" holds the one
    function [transfer] with parameter types [address] and [uint256], the
    output is the single line made of the selector of the canonical
    signature [transfer(address,uint256)], which is [a9059cbb], and of the
    signature with its types joined by comma-space,
    [transfer(address, uint256)]. *)
Theorem transfer_line (py_str : json -> string)
  (json_data function_abi to amount : json) :
  subscript json_data "abi" = Ok (JArr [function_abi]) ->
  subscript function_abi "type" = Ok (JStr "function") ->
  subscript function_abi "name" = Ok (JStr "transfer") ->
  subscript function_abi "inputs" = Ok (JArr [to; amount]) ->
  subscript to "type" = Ok (JStr "address") ->
  subscript amount "type" = Ok (JStr "uint256") ->
  main py_str (EthUtils.function_abi_to_4byte_selector py_str)
       [Document json_data] =
  ([("[" ++ dquote ++ "0x" ++
     hex (EthUtils.function_signature_to_4byte_selector
            "transfer(address,uint256)") ++
     dquote ++ ", " ++ dquote ++ "transfer(address, uint256)" ++ dquote ++
     "],")%string], Ok tt) /\
  hex (EthUtils.function_signature_to_4byte_selector
         "transfer(address,uint256)") = "a9059cbb".
Proof.
  intros Habi Hkind Hname Hinputs Hto Hamount. split.
  - unfold main, file_loop_body. cbn [for_each json_load].
    rewrite bind_io_lift_ok, Habi, bind_io_lift_ok. cbn [iterate].
    rewrite bind_io_lift_ok. cbn [for_each].
    rewrite (abi_loop_body_function py_str _ function_abi (JStr "transfer")
               (JArr [to; amount])
               (EthUtils.function_signature_to_4byte_selector
                  "transfer(address,uint256)")
               [to; amount] ["address"; "uint256"]); try assumption.
    + reflexivity.
    + unfold EthUtils.function_abi_to_4byte_selector,
        EthUtils.abi_to_signature.
      rewrite Hname, (subscript_get _ _ _ (JArr []) Hinputs).
      cbn [bind_result iterate map_result].
      rewrite Hto, Hamount. reflexivity.
    + now apply subscript_get.
    + reflexivity.
    + repeat constructor; assumption.
  - vm_compute. reflexivity.
Qed.


(** C2, as the claim words it, fails: the line does not carry the text
    [transfer(address,uint256)], the types are printed with a space after
    the comma. *)
Lemma transfer_signature_has_spaces :
  exists line,
    stdout (script [Document transfer_document]) = [line] /\
    line <> output_line
              (hex (EthUtils.function_signature_to_4byte_selector
                      "transfer(address,uint256)"))
              "transfer" "address,uint256" /\
    contains "transfer(address,uint256)" line = false /\
    contains "transfer(address, uint256)" line = true.
Proof.
  eexists. split; [vm_compute; reflexivity|]. split; [|split].
  - intros H. apply String.eqb_eq in H. vm_compute in H. discriminate.
  - vm_compute. reflexivity.
  - vm_compute. reflexivity.
Qed.

(** ** Runs on the sample documents *)


Lemma transfer_line_witness :
  script [Document transfer_document] =
  ([("[" ++ dquote ++ "0x" ++
     hex (EthUtils.function_signature_to_4byte_selector
            "transfer(address,uint256)") ++
     dquote ++ ", " ++ dquote ++ "transfer(address, uint256)" ++ dquote ++
     "],")%string], Ok tt) /\
  hex (EthUtils.function_signature_to_4byte_selector
         "transfer(address,uint256)") = "a9059cbb".
Proof.
  apply (transfer_line str_atoms transfer_document transfer_abi
           (parameter "to" "address") (parameter "amount" "uint256"));
    reflexivity.
Defined.

Lemma other_kinds_print_nothing_witness :
  abi_loop_body str_atoms (EthUtils.function_abi_to_4byte_selector str_atoms)
                transfer_event_abi = ([], Ok tt).
Proof.
  apply (other_kinds_print_nothing str_atoms _ transfer_event_abi
           (JStr "event")); [reflexivity | discriminate].
Defined.

Lemma fatal_errors_end_the_run_witness :
  raises (script ([Document transfer_document] ++
                  Document broken_document :: [Document token_document])) /\
  script ([Document transfer_document] ++
          Document broken_document :: [Document token_document]) =
  script ([Document transfer_document] ++ [Document broken_document]) /\
  (forall json_data abi before function_abi after,
      Document broken_document = Document json_data ->
      subscript json_data "abi" = Ok abi ->
      iterate abi = Ok (before ++ function_abi :: after) ->
      entry_lacks_field function_abi ->
      file_loop_body str_atoms
        (EthUtils.function_abi_to_4byte_selector str_atoms)
        (Document broken_document) =
      for_each (abi_loop_body str_atoms
                  (EthUtils.function_abi_to_4byte_selector str_atoms))
               (before ++ [function_abi])).
Proof.
  apply (fatal_errors_end_the_run str_atoms
           (EthUtils.function_abi_to_4byte_selector str_atoms)
           (Document broken_document)).
  apply (entry_incomplete broken_document
           (JArr [transfer_abi; nameless_function_abi; total_supply_abi])
           [transfer_abi; nameless_function_abi; total_supply_abi]
           nameless_function_abi); try reflexivity.
  - simpl. auto.
  - apply lacks_name; reflexivity.
Defined.


Lemma no_parameters_prints_empty_parentheses_witness :
  abi_loop_body str_atoms (EthUtils.function_abi_to_4byte_selector str_atoms)
                total_supply_abi =
  ([("[" ++ dquote ++ "0x" ++
     hex (EthUtils.function_signature_to_4byte_selector "totalSupply()") ++
     dquote ++ ", " ++ dquote ++ "totalSupply" ++ "()" ++ dquote ++
     "],")%string], Ok tt).
Proof.
  apply (no_parameters_prints_empty_parentheses str_atoms
           (EthUtils.function_abi_to_4byte_selector str_atoms)
           total_supply_abi "totalSupply"); reflexivity.
Defined.

Lemma missing_inputs_is_empty_parameters_witness :
  abi_loop_body str_atoms (EthUtils.function_abi_to_4byte_selector str_atoms)
                decimals_abi =
  ([("[" ++ dquote ++ "0x" ++
     hex (EthUtils.function_signature_to_4byte_selector "decimals()") ++
     dquote ++ ", " ++ dquote ++ format_value str_atoms (JStr "decimals") ++
     "()" ++ dquote ++ "],")%string], Ok tt) /\
  forall with_inputs : json,
    subscript with_inputs "type" = Ok (JStr "function") ->
    subscript with_inputs "name" = Ok (JStr "decimals") ->
    subscript with_inputs "inputs" = Ok (JArr []) ->
    EthUtils.function_abi_to_4byte_selector str_atoms with_inputs =
    Ok (EthUtils.function_signature_to_4byte_selector "decimals()") ->
    abi_loop_body str_atoms
      (EthUtils.function_abi_to_4byte_selector str_atoms) with_inputs =
    abi_loop_body str_atoms
      (EthUtils.function_abi_to_4byte_selector str_atoms) decimals_abi.
Proof.
  apply (missing_inputs_is_empty_parameters str_atoms
           (EthUtils.function_abi_to_4byte_selector str_atoms)
           [("type", JStr "function"); ("name", JStr "decimals")]
           (JStr "decimals")); reflexivity.
Defined.

Lemma other_kinds_read_only_the_kind_witness :
  abi_loop_body str_atoms (EthUtils.function_abi_to_4byte_selector str_atoms)
                transfer_event_abi = ([], Ok tt) /\
  abi_loop_body (fun _ => EmptyString) (fun _ => Raise ValueError)
                (JObj [("type", JStr "event")]) =
  abi_loop_body str_atoms (EthUtils.function_abi_to_4byte_selector str_atoms)
                transfer_event_abi /\
  for_each (abi_loop_body str_atoms
              (EthUtils.function_abi_to_4byte_selector str_atoms))
           ([transfer_abi] ++ transfer_event_abi :: [total_supply_abi]) =
  for_each (abi_loop_body str_atoms
              (EthUtils.function_abi_to_4byte_selector str_atoms))
           ([transfer_abi] ++ [total_supply_abi]).
Proof.
  apply (other_kinds_read_only_the_kind str_atoms (fun _ => EmptyString)
           (EthUtils.function_abi_to_4byte_selector str_atoms)
           (fun _ => Raise ValueError)
           transfer_event_abi (JObj [("type", JStr "event")]) (JStr "event")
           [transfer_abi] [total_supply_abi]);
    [reflexivity | reflexivity | discriminate].
Defined.

(** * More on the loops *)

Lemma for_each_run {A} (body : A -> io unit) (l1 l2 : list A) :
  for_each body (l1 ++ l2) =
  match outcome (for_each body l1) with
  | Ok _ => (stdout (for_each body l1) ++ stdout (for_each body l2),
             outcome (for_each body l2))
  | Raise _ => for_each body l1
  end.
Proof.
  rewrite for_each_app.
  destruct (for_each body l1) as [out1 [[]|e]]; simpl; [|reflexivity].
  destruct (for_each body l2) as [out2 r2]. reflexivity.
Qed.

Lemma for_each_stdout {A} (P : string -> Prop) (body : A -> io unit)
  (l : list A) :
  (forall a, Forall P (stdout (body a))) ->
  Forall P (stdout (for_each body l)).
Proof.
  intros Hbody. induction l as [|a l IH]; simpl.
  - constructor.
  - specialize (Hbody a). destruct (body a) as [out [[]|e]]; simpl in *.
    + destruct (for_each body l) as [out' r]. simpl in *.
      apply Forall_app. now split.
    + exact Hbody.
Qed.

Lemma for_each_ok_each {A} (body : A -> io unit) (l : list A) :
  outcome (for_each body l) = Ok tt ->
  Forall (fun a => outcome (body a) = Ok tt) l.
Proof.
  induction l as [|a l IH]; simpl; intros Hok.
  - constructor.
  - destruct (body a) as [out [[]|e]] eqn:Ha; simpl in *.
    + destruct (for_each body l) as [out' r]. simpl in *.
      constructor; [now rewrite Ha | now apply IH].
    + discriminate.
Qed.

Lemma for_each_first_failure {A} (body : A -> io unit) (pre post : list A)
  (a : A) (out : list string) (e : exn) :
  outcome (for_each body pre) = Ok tt ->
  body a = (out, Raise e) ->
  for_each body (pre ++ a :: post) =
  (stdout (for_each body pre) ++ out, Raise e).
Proof.
  intros Hpre Ha. rewrite for_each_run, Hpre. cbn [for_each].
  rewrite Ha. reflexivity.
Qed.

Lemma str_join_not_str (sep : string) (items : list json) :
  existsb (fun v => negb (is_str v)) items = true ->
  str_join sep items = Raise TypeError.
Proof.
  unfold str_join. induction items as [|v items IH]; simpl; [discriminate|].
  destruct v; simpl; try reflexivity.
  intros H. specialize (IH H).
  destruct (map_result as_str items) as [strs|e]; simpl in *.
  - discriminate.
  - exact IH.
Qed.

Section MoreScriptFacts.

Variable py_str : json -> string.
Variable function_abi_to_4byte_selector : json -> result (list byte).

Local Abbreviation entry_step :=
  (abi_loop_body py_str function_abi_to_4byte_selector).

(** The three ways the loop body ends: skipped or failed with nothing
    printed, or one line printed at the very end. *)
Lemma abi_loop_body_cases (function_abi : json) :
  (entry_step function_abi = ([], Ok tt) /\
   is_function_entry function_abi = false) \/
  (exists e, entry_step function_abi = ([], Raise e)) \/
  (exists line, entry_step function_abi = ([line], Ok tt) /\
                printed_line line /\
                is_function_entry function_abi = true).
Proof.
  unfold abi_loop_body, is_function_entry.
  destruct (subscript function_abi "type") as [kind|e]; simpl.
  2: { right. left. now exists e. }
  destruct (ne_str kind "function"); simpl.
  { left. now split. }
  right.
  destruct (subscript function_abi "name") as [name|e]; simpl.
  2: { left. now exists e. }
  destruct (function_abi_to_4byte_selector function_abi) as [sel|e]; simpl.
  2: { left. now exists e. }
  destruct (dict_get function_abi "inputs" (JArr [])) as [inputs|e]; simpl.
  2: { left. now exists e. }
  destruct (iterate inputs) as [input_list|e]; simpl.
  2: { left. now exists e. }
  destruct (map_result (fun input_data => subscript input_data "type")
                       input_list) as [arg_types|e]; simpl.
  2: { left. now exists e. }
  destruct (str_join ", " arg_types) as [arg_string|e]; simpl.
  2: { left. now exists e. }
  right. eexists. split; [reflexivity|]. split; [|reflexivity].
  exists sel, (format_value py_str name), arg_string. reflexivity.
Qed.

(** X1. Files are processed one after the other: the run over [a ++ b] is
    the run over [a], followed, when that one ended normally, by the run
    over [b] whose lines come after; when the run over [a] raised, [b] adds
    nothing. *)
Theorem appended_files_run (a b : list file) :
  main py_str function_abi_to_4byte_selector (a ++ b) =
  match outcome (main py_str function_abi_to_4byte_selector a) with
  | Ok _ =>
      (stdout (main py_str function_abi_to_4byte_selector a) ++
       stdout (main py_str function_abi_to_4byte_selector b),
       outcome (main py_str function_abi_to_4byte_selector b))
  | Raise _ => main py_str function_abi_to_4byte_selector a
  end.
Proof.
  apply for_each_run.
Qed.


(** X3. An entry on which the loop body raises leaves no line behind:
    [print] is the last step, so a line is only printed for an entry that
    was read completely. *)
Theorem failing_entry_prints_nothing (function_abi : json) :
  raises (abi_loop_body py_str function_abi_to_4byte_selector function_abi) ->
  stdout (abi_loop_body py_str function_abi_to_4byte_selector function_abi) =
  [].
Proof.
  intros [e He].
  destruct (abi_loop_body_cases function_abi)
    as [[H _] | [[e' H] | [line [H _]]]]; rewrite H in *; simpl in *;
    try reflexivity; discriminate.
Qed.

(** X4. The loop over "abi" never calls [print] more often than there are
    entries that pass the guard of line 10, whether it ends normally or
    not: at most one table row per function entry.  (A row is the text of
    one [print]; a name holding a line break would spread it over several
    lines of the terminal.) *)
Theorem at_most_one_row_per_function_entry (entries : list json) :
  List.length
    (stdout (for_each (abi_loop_body py_str function_abi_to_4byte_selector)
                      entries)) <=
  List.length (filter is_function_entry entries).
Proof.
  induction entries as [|function_abi entries IH]; simpl; [lia|].
  destruct (abi_loop_body_cases function_abi)
    as [[-> Hf] | [[e ->] | [line [-> [_ Hf]]]]]; rewrite ?Hf; simpl.
  - destruct (for_each entry_step entries) as [out r]. simpl in *. lia.
  - destruct (is_function_entry function_abi); simpl; lia.
  - destruct (for_each entry_step entries) as [out r]. simpl in *. lia.
Qed.

(** X5. When the loop over "abi" ends normally, the number of [print]
    calls it made, that is of table rows, is exactly the number of entries
    that pass the guard of line 10. *)
Theorem one_row_per_function_entry (entries : list json) :
  outcome (for_each (abi_loop_body py_str function_abi_to_4byte_selector)
                    entries) = Ok tt ->
  List.length
    (stdout (for_each (abi_loop_body py_str function_abi_to_4byte_selector)
                      entries)) =
  List.length (filter is_function_entry entries).
Proof.
  induction entries as [|function_abi entries IH]; simpl; [reflexivity|].
  destruct (abi_loop_body_cases function_abi)
    as [[-> Hf] | [[e ->] | [line [-> [_ Hf]]]]]; rewrite ?Hf; simpl.
  - destruct (for_each entry_step entries) as [out r]. simpl in *.
    intros Hok. now apply IH.
  - discriminate.
  - destruct (for_each entry_step entries) as [out r]. simpl in *.
    intros Hok. f_equal. now apply IH.
Qed.

(** The loop body with lines 15 and 16 taken as one read. *)
Lemma abi_loop_body_reads (function_abi : json) :
  entry_step function_abi =
  (kind <- lift (subscript function_abi "type") ;;
   if ne_str kind "function" then ret tt
   else
     function_name <- lift (subscript function_abi "name") ;;
     selector <- lift (function_abi_to_4byte_selector function_abi) ;;
     arg_types <- lift (read_parameter_types function_abi) ;;
     arg_string <- lift (str_join ", " arg_types) ;;
     print (output_line (hex selector)
                        (format_value py_str function_name) arg_string))%io.
Proof.
  unfold abi_loop_body, read_parameter_types.
  destruct (subscript function_abi "type") as [kind|]; [|reflexivity].
  rewrite !bind_io_lift_ok.
  destruct (ne_str kind "function"); [reflexivity|].
  destruct (subscript function_abi "name") as [name|]; [|reflexivity].
  rewrite !bind_io_lift_ok.
  destruct (function_abi_to_4byte_selector function_abi) as [sel|];
    [|reflexivity].
  rewrite !bind_io_lift_ok.
  destruct (dict_get function_abi "inputs" (JArr [])) as [inputs|];
    [|reflexivity].
  rewrite !bind_io_lift_ok. cbn [bind_result].
  destruct (iterate inputs) as [input_list|]; [|reflexivity].
  rewrite !bind_io_lift_ok. reflexivity.
Qed.

(** X6. The exception that ends a run is the one of the first file that
    fails, and standard output then holds the lines of the files before it
    followed by the lines that file printed before failing. *)
Theorem first_failing_file_decides (pre post : list file) (f : file)
  (out : list string) (e : exn) :
  outcome (main py_str function_abi_to_4byte_selector pre) = Ok tt ->
  file_loop_body py_str function_abi_to_4byte_selector f = (out, Raise e) ->
  main py_str function_abi_to_4byte_selector (pre ++ f :: post) =
  (stdout (main py_str function_abi_to_4byte_selector pre) ++ out, Raise e).
Proof.
  apply for_each_first_failure.
Qed.

(** X7. A document that is not an object, such as a bare array of entries,
    cannot be subscripted with "abi": the file prints nothing and raises
    [TypeError]. *)
Theorem document_must_be_an_object (json_data : json) :
  is_object json_data = false ->
  file_loop_body py_str function_abi_to_4byte_selector (Document json_data) =
  ([], Raise TypeError).
Proof.
  intros H. unfold file_loop_body. destruct json_data; try reflexivity.
  discriminate.
Qed.

(** X8. Entries have to be objects: after entries that went well, an entry
    that is a string, a number, a list or null ends the loop with
    [TypeError], the lines of the entries before it being printed. *)
Theorem entry_must_be_an_object (before after : list json)
  (function_abi : json) :
  outcome (for_each (abi_loop_body py_str function_abi_to_4byte_selector)
                    before) = Ok tt ->
  is_object function_abi = false ->
  for_each (abi_loop_body py_str function_abi_to_4byte_selector)
           (before ++ function_abi :: after) =
  (stdout (for_each (abi_loop_body py_str function_abi_to_4byte_selector)
                    before), Raise TypeError).
Proof.
  intros Hbefore Hobj.
  rewrite (for_each_first_failure _ before after function_abi [] TypeError
             Hbefore).
  - now rewrite app_nil_r.
  - destruct function_abi; try reflexivity. discriminate.
Qed.

(** X9. "abi" is walked over as Python iterates it.  When it is not a list:
    an empty object or an empty string gives no iteration, so the file
    prints nothing and ends normally; anything else (a number, a boolean,
    null, an object or a string that is not empty, whose items are strings)
    raises [TypeError] with nothing printed. *)
Theorem abi_must_be_a_list (json_data abi : json) :
  subscript json_data "abi" = Ok abi ->
  is_list abi = false ->
  file_loop_body py_str function_abi_to_4byte_selector (Document json_data) =
  ([], if empty_iterable abi then Ok tt else Raise TypeError).
Proof.
  intros Habi Hlist. unfold file_loop_body. cbn [json_load].
  rewrite bind_io_lift_ok, Habi, bind_io_lift_ok.
  destruct abi as [| | | |s|items|members]; try reflexivity.
  - destruct s; reflexivity.
  - discriminate.
  - destruct members as [|[k v] members]; reflexivity.
Qed.

(** X10. A missing key is reported as such: an entry without "type", or a
    function without "name", raises [KeyError] for that key, prints
    nothing, and the selector routine has no part in it. *)
Theorem missing_key_is_reported (function_abi : json) (key : string) :
  missing_key function_abi key ->
  abi_loop_body py_str function_abi_to_4byte_selector function_abi =
  ([], Raise (KeyError key)).
Proof.
  intros [members Hkind | members Hkind Hname]; unfold abi_loop_body;
    simpl; rewrite Hkind; simpl.
  - reflexivity.
  - now rewrite Hname.
Qed.

(** X11. An exception of the selector routine is the exception of the
    entry: nothing is printed for it and "inputs" is not looked at. *)
Theorem selector_failure_propagates (function_abi name : json) (e : exn) :
  subscript function_abi "type" = Ok (JStr "function") ->
  subscript function_abi "name" = Ok name ->
  function_abi_to_4byte_selector function_abi = Raise e ->
  abi_loop_body py_str function_abi_to_4byte_selector function_abi =
  ([], Raise e).
Proof.
  intros Hkind Hname Hsel. unfold abi_loop_body.
  rewrite Hkind, bind_io_lift_ok. cbn [ne_str String.eqb Ascii.eqb
                                       Bool.eqb negb].
  rewrite Hname, bind_io_lift_ok, Hsel. reflexivity.
Qed.

(** X12. "inputs" may be missing but not just anything: when the key is
    there with a value that cannot be iterated (null, a number, a boolean),
    the entry prints nothing and raises, whatever the selector routine
    does: the routine's own exception if it raises at line 13, and
    [TypeError] from the comprehension of line 16 if it returns. *)
Theorem inputs_must_be_iterable (function_abi name inputs : json) (e : exn) :
  subscript function_abi "type" = Ok (JStr "function") ->
  subscript function_abi "name" = Ok name ->
  subscript function_abi "inputs" = Ok inputs ->
  iterate inputs = Raise e ->
  abi_loop_body py_str function_abi_to_4byte_selector function_abi =
  ([], match function_abi_to_4byte_selector function_abi with
       | Ok _ => Raise TypeError
       | Raise x => Raise x
       end).
Proof.
  intros Hkind Hname Hinputs Hiter. unfold abi_loop_body.
  rewrite Hkind, bind_io_lift_ok. cbn [ne_str String.eqb Ascii.eqb
                                       Bool.eqb negb].
  rewrite Hname, bind_io_lift_ok.
  destruct (function_abi_to_4byte_selector function_abi) as [sel|x];
    [|reflexivity].
  rewrite bind_io_lift_ok.
  rewrite (subscript_get _ _ _ (JArr []) Hinputs), bind_io_lift_ok.
  destruct inputs; try discriminate; reflexivity.
Qed.

(** X13. Every parameter type has to be a string: when all parameters have a
    "type" but one of the values is not a string, the entry prints nothing
    and raises, whatever the selector routine does: the routine's own
    exception if it raises at line 13, and [TypeError] from the join of
    line 17 if it returns. *)
Theorem parameter_type_must_be_a_string (function_abi name : json)
  (arg_types : list json) :
  subscript function_abi "type" = Ok (JStr "function") ->
  subscript function_abi "name" = Ok name ->
  read_parameter_types function_abi = Ok arg_types ->
  existsb (fun v => negb (is_str v)) arg_types = true ->
  abi_loop_body py_str function_abi_to_4byte_selector function_abi =
  ([], match function_abi_to_4byte_selector function_abi with
       | Ok _ => Raise TypeError
       | Raise x => Raise x
       end).
Proof.
  intros Hkind Hname Hread Hbad. rewrite abi_loop_body_reads.
  rewrite Hkind, bind_io_lift_ok. cbn [ne_str String.eqb Ascii.eqb
                                       Bool.eqb negb].
  rewrite Hname, bind_io_lift_ok.
  destruct (function_abi_to_4byte_selector function_abi) as [sel|x];
    [|reflexivity].
  rewrite bind_io_lift_ok, Hread, bind_io_lift_ok.
  now rewrite (str_join_not_str ", " arg_types Hbad).
Qed.

(** X14. The loop body reads the entry's "type", "name" and, through
    "inputs", its parameter types, and nothing else: two entries that agree
    on these reads, and on which the selector routine answers the same, are
    processed with the same result, whatever other members they hold. *)
Theorem only_kind_name_and_types_are_read (function_abi function_abi' : json) :
  subscript function_abi "type" = subscript function_abi' "type" ->
  subscript function_abi "name" = subscript function_abi' "name" ->
  function_abi_to_4byte_selector function_abi =
  function_abi_to_4byte_selector function_abi' ->
  read_parameter_types function_abi = read_parameter_types function_abi' ->
  abi_loop_body py_str function_abi_to_4byte_selector function_abi =
  abi_loop_body py_str function_abi_to_4byte_selector function_abi'.
Proof.
  intros Hkind Hname Hsel Hread. rewrite 2 abi_loop_body_reads.
  now rewrite Hkind, Hname, Hsel, Hread.
Qed.

(** X15. A run that ends normally has read everything: every file was a
    document with an "abi" that could be walked over, and the loop body went
    well on every one of its entries. *)
Theorem normal_end_means_all_read (files : list file) :
  outcome (main py_str function_abi_to_4byte_selector files) = Ok tt ->
  Forall (fun f =>
            exists json_data abi entries,
              f = Document json_data /\
              subscript json_data "abi" = Ok abi /\
              iterate abi = Ok entries /\
              Forall (fun function_abi =>
                        outcome (abi_loop_body py_str
                                   function_abi_to_4byte_selector
                                   function_abi) = Ok tt)
                     entries)
         files.
Proof.
  intros Hok. apply for_each_ok_each in Hok.
  eapply Forall_impl; [|exact Hok]. clear Hok. intros f Hf.
  unfold file_loop_body in Hf.
  destruct f as [| |json_data]; try discriminate Hf. cbn [json_load] in Hf.
  rewrite bind_io_lift_ok in Hf.
  destruct (subscript json_data "abi") as [abi|] eqn:Habi;
    [|discriminate Hf].
  rewrite bind_io_lift_ok in Hf.
  destruct (iterate abi) as [entries|] eqn:Hiter; [|discriminate Hf].
  rewrite bind_io_lift_ok in Hf.
  exists json_data, abi, entries.
  split; [reflexivity | split; [exact Habi | split; [exact Hiter|]]].
  now apply for_each_ok_each.
Qed.

End MoreScriptFacts.

(** ** Hex text *)

Lemma byte_of_hex_of_byte (b : byte) :
  byte_of_hex (hex_digit (Byte.to_N b / 16)) (hex_digit (Byte.to_N b mod 16)) =
  b.
Proof.
  destruct b; vm_compute; reflexivity.
Qed.

Lemma unhex_hex (bs : list byte) : unhex (hex bs) = bs.
Proof.
  induction bs as [|b bs IH]; [reflexivity|].
  cbn [hex hex_of_byte String.append unhex].
  now rewrite byte_of_hex_of_byte, IH.
Qed.

(** X16. The hex text of line 13 loses nothing: two selectors printed with
    the same text are the same bytes. *)
Theorem hex_injective (selector selector' : list byte) :
  hex selector = hex selector' -> selector = selector'.
Proof.
  intros H. rewrite <- (unhex_hex selector), <- (unhex_hex selector').
  now rewrite H.
Qed.

(** ** More runs on the sample documents *)

Lemma failing_entry_prints_nothing_witness :
  stdout (abi_loop_body str_atoms
            (EthUtils.function_abi_to_4byte_selector str_atoms)
            nameless_function_abi) = [].
Proof.
  apply (failing_entry_prints_nothing str_atoms
           (EthUtils.function_abi_to_4byte_selector str_atoms)
           nameless_function_abi).
  exists (KeyError "name"). reflexivity.
Defined.

Lemma first_failing_file_decides_witness :
  script ([Document transfer_document] ++
          Document broken_document :: [Document token_document]) =
  (stdout (script [Document transfer_document]) ++
   [output_line "a9059cbb" "transfer" "address, uint256"],
   Raise (KeyError "name")).
Proof.
  apply (first_failing_file_decides str_atoms
           (EthUtils.function_abi_to_4byte_selector str_atoms)
           [Document transfer_document] [Document token_document]
           (Document broken_document)
           [output_line "a9059cbb" "transfer" "address, uint256"]
           (KeyError "name")); vm_compute; reflexivity.
Defined.

Lemma document_must_be_an_object_witness :
  file_loop_body str_atoms (EthUtils.function_abi_to_4byte_selector str_atoms)
                 (Document (JArr [transfer_abi])) =
  ([], Raise TypeError).
Proof.
  apply (document_must_be_an_object str_atoms
           (EthUtils.function_abi_to_4byte_selector str_atoms)
           (JArr [transfer_abi])).
  reflexivity.
Defined.

Lemma entry_must_be_an_object_witness :
  for_each (abi_loop_body str_atoms
              (EthUtils.function_abi_to_4byte_selector str_atoms))
           ([transfer_abi] ++
            JStr "function approve(address,uint256)" :: [total_supply_abi]) =
  (stdout (for_each (abi_loop_body str_atoms
                       (EthUtils.function_abi_to_4byte_selector str_atoms))
                    [transfer_abi]), Raise TypeError).
Proof.
  apply (entry_must_be_an_object str_atoms
           (EthUtils.function_abi_to_4byte_selector str_atoms)
           [transfer_abi] [total_supply_abi]
           (JStr "function approve(address,uint256)")).
  - vm_compute. reflexivity.
  - reflexivity.
Defined.

Lemma abi_must_be_a_list_witness :
  file_loop_body str_atoms (EthUtils.function_abi_to_4byte_selector str_atoms)
    (Document (JObj [("abi", JObj [("transfer", transfer_abi)])])) =
  ([], if empty_iterable (JObj [("transfer", transfer_abi)])
       then Ok tt else Raise TypeError).
Proof.
  apply (abi_must_be_a_list str_atoms
           (EthUtils.function_abi_to_4byte_selector str_atoms)
           (JObj [("abi", JObj [("transfer", transfer_abi)])])
           (JObj [("transfer", transfer_abi)])); reflexivity.
Defined.

Lemma missing_key_is_reported_witness :
  abi_loop_body str_atoms (EthUtils.function_abi_to_4byte_selector str_atoms)
                nameless_function_abi =
  ([], Raise (KeyError "name")).
Proof.
  apply (missing_key_is_reported str_atoms
           (EthUtils.function_abi_to_4byte_selector str_atoms)
           nameless_function_abi "name").
  apply missing_name; reflexivity.
Defined.

Lemma selector_failure_propagates_witness :
  abi_loop_body str_atoms (fun _ => Raise ValueError) transfer_abi =
  ([], Raise ValueError).
Proof.
  apply (selector_failure_propagates str_atoms (fun _ => Raise ValueError)
           transfer_abi (JStr "transfer") ValueError); reflexivity.
Defined.

Lemma only_kind_name_and_types_are_read_witness :
  abi_loop_body str_atoms (EthUtils.function_abi_to_4byte_selector str_atoms)
                transfer_abi =
  abi_loop_body str_atoms (EthUtils.function_abi_to_4byte_selector str_atoms)
                transfer_abi_other_names.
Proof.
  apply (only_kind_name_and_types_are_read str_atoms
           (EthUtils.function_abi_to_4byte_selector str_atoms)
           transfer_abi transfer_abi_other_names); reflexivity.
Defined.

Lemma normal_end_means_all_read_witness :
  Forall (fun f =>
            exists json_data abi entries,
              f = Document json_data /\
              subscript json_data "abi" = Ok abi /\
              iterate abi = Ok entries /\
              Forall (fun function_abi =>
                        outcome (abi_loop_body str_atoms
                                   (EthUtils.function_abi_to_4byte_selector
                                      str_atoms)
                                   function_abi) = Ok tt)
                     entries)
         [Document token_document; Document transfer_document].
Proof.
  apply (normal_end_means_all_read str_atoms
           (EthUtils.function_abi_to_4byte_selector str_atoms)
           [Document token_document; Document transfer_document]).
  vm_compute. reflexivity.
Defined.

Lemma hex_injective_witness :
  EthUtils.function_signature_to_4byte_selector "transfer(address,uint256)" =
  [xa9; x05; x9c; xbb].
Proof.
  apply (hex_injective
           (EthUtils.function_signature_to_4byte_selector
              "transfer(address,uint256)")
           [xa9; x05; x9c; xbb]).
  vm_compute. reflexivity.
Defined.

Lemma one_row_per_function_entry_witness :
  List.length
    (stdout (for_each (abi_loop_body str_atoms
                         (EthUtils.function_abi_to_4byte_selector str_atoms))
                      [constructor_abi; transfer_abi; transfer_event_abi;
                       total_supply_abi; decimals_abi])) =
  List.length (filter is_function_entry
                      [constructor_abi; transfer_abi; transfer_event_abi;
                       total_supply_abi; decimals_abi]).
Proof.
  apply (one_row_per_function_entry str_atoms
           (EthUtils.function_abi_to_4byte_selector str_atoms)).
  vm_compute. reflexivity.
Defined.

Lemma inputs_must_be_iterable_witness :
  abi_loop_body str_atoms (EthUtils.function_abi_to_4byte_selector str_atoms)
                pause_null_inputs_abi =
  ([], Raise TypeError).
Proof.
  apply (inputs_must_be_iterable str_atoms
           (EthUtils.function_abi_to_4byte_selector str_atoms)
           pause_null_inputs_abi (JStr "pause") JNull TypeError);
    reflexivity.
Defined.

Lemma parameter_type_must_be_a_string_witness :
  abi_loop_body str_atoms (EthUtils.function_abi_to_4byte_selector str_atoms)
                mint_numeric_type_abi =
  ([], Raise TypeError).
Proof.
  apply (parameter_type_must_be_a_string str_atoms
           (EthUtils.function_abi_to_4byte_selector str_atoms)
           mint_numeric_type_abi (JStr "mint") [JStr "address"; JInt 256]);
    reflexivity.
Defined.

(** * The selector across runs *)

Lemma for_each_stdout_In {A} (body : A -> io unit) (l : list A) (a : A)
  (line : string) :
  outcome (for_each body l) = Ok tt ->
  In a l ->
  In line (stdout (body a)) ->
  In line (stdout (for_each body l)).
Proof.
  induction l as [|b l IH]; simpl; intros Hok Hin Hline; [contradiction|].
  destruct (body b) as [out [[]|e]] eqn:Hb; simpl in *; [|discriminate].
  destruct (for_each body l) as [out' r] eqn:Hl; simpl in *.
  apply in_or_app. destruct Hin as [->|Hin].
  - left. rewrite Hb in Hline. exact Hline.
  - right. now apply IH.
Qed.

(** In a run that ends normally, what the loop body prints for an entry of
    the run is on standard output. *)
Lemma entry_row_in_run (py_str : json -> string)
  (selector_of : json -> result (list byte)) (files : list file)
  (function_abi : json) (line : string) :
  outcome (main py_str selector_of files) = Ok tt ->
  entry_of files function_abi ->
  In line (stdout (abi_loop_body py_str selector_of function_abi)) ->
  In line (stdout (main py_str selector_of files)).
Proof.
  intros Hok (json_data & abi & entries & Hfile & Habi & Hiter & Hentry) Hline.
  apply (for_each_stdout_In _ files (Document json_data)); try assumption.
  pose proof (for_each_ok_each _ _ Hok) as Hall.
  rewrite Forall_forall in Hall. specialize (Hall _ Hfile).
  unfold file_loop_body in *. cbn [json_load] in *.
  rewrite bind_io_lift_ok, Habi, bind_io_lift_ok, Hiter, bind_io_lift_ok in *.
  now apply (for_each_stdout_In _ entries function_abi).
Qed.


